(** * simplecache: a TTL cache with a caching decorator

    Shallow embedding of [simplecache.py] (class [Cache]) and proofs of
    its specification.

    Modelling choices.
    - The class attributes [_cache] and [_ttl] are two finite maps keyed
      by strings; together with the wall clock read by [time.time()] and
      the records emitted through [logger.info] they form the [world].
    - The clock reads whole seconds and TTLs are Python ints, as in
      every call of the repository (3600, 10, 2). Timestamps are the
      floats of Python holding such numbers, kept as integers. The sum
      [t + ttl] is computed as Python does: the int is converted to a
      float (or [OverflowError] is raised), and the sum is rounded to
      binary64, with the rounding of the IEEE 754 specification of the
      Standard Library. Up to 2^53 in magnitude nothing is rounded.
    - The "valid until" part of the "Cache set" message calls
      [time.gmtime] and [time.strftime], which fail beyond the range of
      the platform; the limits are those of CPython 3.11 on 64-bit
      Linux.
    - Python code is embedded in a state-and-exception monad [M]: a
      computation takes a world and yields an outcome (a returned value
      or a raised exception) and the world it leaves behind.
    - An awaited producer [func] is an arbitrary computation [M value]:
      it may take time (advance the clock), log, fail, and touch the
      cache itself (other tasks running during the [await]). *)

From Stdlib Require Import ZArith Lia.
From Stdlib Require SpecFloat.
From stdpp Require Import base gmap strings list.

Open Scope Z_scope.

(** ** Data *)

(** The values a producer may return and the cache may hold ([Any]). *)
Inductive value :=
| PyNone
| PyStr (s : string)
| PyInt (n : Z)
| PyBool (b : bool).

Inductive exn :=
| KeyError (key : string)
| OverflowError
| OSError
| ProducerError (msg : string)
| CancelledError.

Inductive outcome (A : Type) :=
| Return (a : A)
| Raise (e : exn).
Arguments Return {A} a.
Arguments Raise {A} e.

(** The five messages of [logger.info]; [CacheSet] carries the instant
    printed after "valid until". *)
Inductive log_record :=
| CacheInvalidated (key : string)
| CacheHit (key : string)
| CacheMiss (key : string)
| CacheSet (key : string) (until : Z)
| CacheCleared.

Record world := World {
  clock : Z;
  _cache : gmap string value;
  _ttl : gmap string Z;
  logged : list log_record
}.

(** ** The monad of Python statements *)

Definition M (A : Type) : Type := world → outcome A * world.

Definition ret {A} (a : A) : M A := λ w, (Return a, w).

Definition bind {A B} (c : M A) (k : A → M B) : M B :=
  λ w, match c w with
       | (Return a, w') => k a w'
       | (Raise e, w') => (Raise e, w')
       end.

Definition raise {A} (e : exn) : M A := λ w, (Raise e, w).

Declare Scope py_scope.
Delimit Scope py_scope with py.
Notation "x <- c ;; k" := (bind c (λ x, k))
  (at level 100, c at next level, right associativity) : py_scope.
Notation "c ;; k" := (bind c (λ _, k))
  (at level 100, right associativity) : py_scope.
Open Scope py_scope.

(** ** Primitive statements *)

(** [time.time()] *)
Definition time_time : M Z := λ w, (Return (clock w), w).

(** The world after one more record has been logged. *)
Definition log_to (r : log_record) (w : world) : world :=
  World (clock w) (_cache w) (_ttl w) (logged w ++ [r]).

(** [logger.info(...)] *)
Definition logger_info (r : log_record) : M unit :=
  λ w, (Return tt, log_to r w).

(** *** Arithmetic on timestamps *)

(** 2^53: up to this magnitude every integer is a binary64 float. *)
Definition exact_max : Z := 9007199254740992.

(** Beyond every finite float; stands for an infinite sum. *)
Definition float_inf : Z := 2 ^ 1024.

(** An integer rounded to the nearest binary64 float, ties to even;
    [None] when it rounds beyond the largest finite float. *)
Definition float_of_Z (z : Z) : option Z :=
  if Z.abs z <=? exact_max then Some z
  else
    match SpecFloat.binary_normalize 53 1024 z 0 false with
    | SpecFloat.S754_finite s m e =>
        Some (SpecFloat.cond_Zopp s (Z.pos m) * 2 ^ e)
    | _ => None
    end.

(** The conversion of an int operand that [float + int] performs:
    "int too large to convert to float". *)
Definition int_to_float (n : Z) : M Z :=
  λ w, match float_of_Z n with
       | Some x => (Return x, w)
       | None => (Raise OverflowError, w)
       end.

(** The sum of two floats: rounded, and infinite beyond the finite
    range (which takes a clock beyond 2^969). *)
Definition float_add (a b : Z) : Z :=
  match float_of_Z (a + b) with
  | Some x => x
  | None => if a + b <? 0 then - float_inf else float_inf
  end.

(** [t + ttl] for a float [t] and an int [ttl]. *)
Definition time_plus (t ttl : Z) : M Z :=
  x <- int_to_float ttl ;;
  ret (float_add t x).

(** The limits of [time.strftime("%H:%M:%S", time.gmtime(x))]: the
    range of [time_t] (2^63), the first and last second [gmtime] finds a
    year for (its year is a C int counted from 1900), and the last
    second whose year [strftime] reads as a C int. *)
Definition time_t_max : Z := 9223372036854775808.
Definition gmtime_min : Z := -67768040609740800.
Definition gmtime_max : Z := 67768036191676799.
Definition strftime_max : Z := 67767976233532799.

(** [time.strftime("%H:%M:%S", time.gmtime(x))], for what it raises. *)
Definition strftime_gmtime (x : Z) : M unit :=
  λ w, if (x <? - time_t_max) || (time_t_max <? x) then (Raise OverflowError, w)
       else if (x <? gmtime_min) || (gmtime_max <? x) then (Raise OSError, w)
       else if strftime_max <? x then (Raise OverflowError, w)
       else (Return tt, w).

(** [key in cls._cache] *)
Definition cache_contains (key : string) : M bool :=
  λ w, (Return (bool_decide (is_Some (_cache w !! key))), w).

(** [cls._cache[key]] *)
Definition cache_getitem (key : string) : M value :=
  λ w, match _cache w !! key with
       | Some v => (Return v, w)
       | None => (Raise (KeyError key), w)
       end.

(** [cls._ttl[key]] *)
Definition ttl_getitem (key : string) : M Z :=
  λ w, match _ttl w !! key with
       | Some e => (Return e, w)
       | None => (Raise (KeyError key), w)
       end.

(** [cls._cache[key] = v] *)
Definition cache_setitem (key : string) (v : value) : M unit :=
  λ w, (Return tt, World (clock w) (<[key := v]> (_cache w)) (_ttl w) (logged w)).

(** [cls._ttl[key] = e] *)
Definition ttl_setitem (key : string) (e : Z) : M unit :=
  λ w, (Return tt, World (clock w) (_cache w) (<[key := e]> (_ttl w)) (logged w)).

(** [cls._cache = {}] and [cls._ttl = {}] *)
Definition cache_reset : M unit :=
  λ w, (Return tt, World (clock w) ∅ (_ttl w) (logged w)).
Definition ttl_reset : M unit :=
  λ w, (Return tt, World (clock w) (_cache w) ∅ (logged w)).

(** ** The class [Cache] *)

Definition default_ttl : Z := 3600.

(** [Cache.add(key, value, ttl)] *)
Definition add (key : string) (v : value) (ttl : Z) : M unit :=
  t <- time_time ;;
  cache_setitem key v ;;
  e <- time_plus t ttl ;;
  ttl_setitem key e ;;
  until <- time_plus t ttl ;;
  strftime_gmtime until ;;
  logger_info (CacheSet key until).

(** The two last lines of [Cache.get]: log the miss, return [None]. *)
Definition get_miss (key : string) : M value :=
  logger_info (CacheMiss key) ;;
  ret PyNone.

(** [Cache.get(key)] *)
Definition get (key : string) : M value :=
  t <- time_time ;;
  present <- cache_contains key ;;
  if present : bool then
    e <- ttl_getitem key ;;
    if e >? t then
      logger_info (CacheHit key) ;;
      cache_getitem key
    else get_miss key
  else get_miss key.

(** [Cache.invalidate(key)] *)
Definition invalidate (key : string) : M unit :=
  present <- cache_contains key ;;
  if present : bool then
    t <- time_time ;;
    ttl_setitem key (t - 60) ;;
    logger_info (CacheInvalidated key)
  else ret tt.

(** [Cache.clear()] *)
Definition clear : M unit :=
  cache_reset ;;
  ttl_reset ;;
  logger_info CacheCleared.

(** The tail of [wrapper] from the "Cache miss" line on: await the
    producer, store its result with the instant [t] read on entry. *)
Definition wrapper_miss (key : string) (ttl t : Z) (func : M value) : M value :=
  logger_info (CacheMiss key) ;;
  result <- func ;;
  cache_setitem key result ;;
  e <- time_plus t ttl ;;
  ttl_setitem key e ;;
  until <- time_plus t ttl ;;
  strftime_gmtime until ;;
  logger_info (CacheSet key until) ;;
  ret result.

(** [wrapper], the function that [Cache.cache(key, ttl, ignore,
    invalidate)(func)] returns. *)
Definition wrapper (key : string) (ttl : Z) (ignore invalidate : bool)
    (func : M value) : M value :=
  t <- time_time ;;
  stale <- (if invalidate then cache_contains key else ret false) ;;
  if stale : bool then
    ttl_setitem key (t - 60) ;;
    logger_info (CacheInvalidated key) ;;
    func
  else
    lookup <- (if negb ignore then cache_contains key else ret false) ;;
    if lookup : bool then
      e <- ttl_getitem key ;;
      if e >? t then
        logger_info (CacheHit key) ;;
        cache_getitem key
      else wrapper_miss key ttl t func
    else wrapper_miss key ttl t func.

(** [Cache.cache] with its default arguments. *)
Definition cache (key : string) (func : M value) : M value :=
  wrapper key default_ttl false false func.

(** ** Collaborators used by the tests *)

(** [await asyncio.sleep(d)]: the clock moves on, nothing else does. *)
Definition sleep (d : Z) : M unit :=
  λ w, (Return tt, World (clock w + d) (_cache w) (_ttl w) (logged w)).

(** A producer that takes [d] seconds and returns [v]. *)
Definition slow (d : Z) (v : value) : M value :=
  sleep d ;; ret v.

(** A producer that takes [d] seconds and then fails with [e]. *)
Definition failing (d : Z) (e : exn) : M value :=
  sleep d ;; raise e.

(** [mock_get_static_data] and [mock_update_static_data] of the tests. *)
Definition mock_get_static_data : M value :=
  cache "static_data" (slow 3 (PyStr "static_data")).
Definition mock_update_static_data : M value :=
  wrapper "static_data" default_ttl false true (slow 3 PyNone).

(** The state of a fresh process: both dictionaries empty. *)
Definition fresh (now : Z) : world := World now ∅ ∅ [].

(** ** Notions used by the statements *)

(** The two dictionaries have the same keys. *)
Definition in_sync (w : world) : Prop :=
  dom (_cache w) = dom (_ttl w).

(** An integer that binary64 holds exactly and that the message of
    "Cache set" can render: at most 2^53 in magnitude. *)
Definition exact (z : Z) : Prop := - exact_max ≤ z ≤ exact_max.

(** A TTL for which [t + ttl] is computed without rounding. *)
Definition plain (t ttl : Z) : Prop := exact ttl ∧ exact (t + ttl).

(** A TTL that converts to a float. *)
Definition converts (ttl : Z) : Prop := is_Some (float_of_Z ttl).

(** What [time.time()] can read: CPython keeps the clock in a signed
    64-bit count of nanoseconds. *)
Definition max_clock : Z := 9223372036.
Definition real_clock (w : world) : Prop := - max_clock ≤ clock w ≤ max_clock.

(** The world in which [wrapper] awaits its producer, following the
    branches of the source; [None] when it returns (or fails on a
    dictionary lookup) before it reaches an [await]. *)
Definition call_world (key : string) (ignore invalidate : bool) (w : world)
    : option world :=
  if invalidate && bool_decide (is_Some (_cache w !! key)) then
    Some (log_to (CacheInvalidated key)
            (World (clock w) (_cache w) (<[key := clock w - 60]> (_ttl w)) (logged w)))
  else if negb ignore && bool_decide (is_Some (_cache w !! key)) then
    match _ttl w !! key with
    | Some e => if e >? clock w then None else Some (log_to (CacheMiss key) w)
    | None => None
    end
  else Some (log_to (CacheMiss key) w).

(** What [wrapper] does once the producer has returned [result]: nothing
    on the invalidating path, the three populate lines on the miss path. *)
Definition after_call (key : string) (ttl t : Z) (stale : bool) (result : value)
    : M value :=
  if stale then ret result
  else
    cache_setitem key result ;;
    e <- time_plus t ttl ;;
    ttl_setitem key e ;;
    until <- time_plus t ttl ;;
    strftime_gmtime until ;;
    logger_info (CacheSet key until) ;;
    ret result.

(** The wrapper returns the cached value whatever the producer is. *)
Definition returns_cached (key : string) (ttl : Z) (ignore invalidate : bool)
    (w : world) : Prop :=
  ∃ v, _cache w !! key = Some v ∧
       ∀ func, wrapper key ttl ignore invalidate func w
               = (Return v, log_to (CacheHit key) w).

(** The wrapper runs the producer once, in a world [wp] and followed by
    a continuation [k] that are both fixed before the producer is known. *)
Definition invokes_producer (key : string) (ttl : Z) (ignore invalidate : bool)
    (w : world) : Prop :=
  ∃ wp (k : value → M value),
    ∀ func, wrapper key ttl ignore invalidate func w = bind func k wp.

(** The miss path as the specification words it: "invoke func, store its
    result via Add(key, result, ttl), and return the result". *)
Definition wrapper_miss_spec (key : string) (ttl : Z) (func : M value) : M value :=
  logger_info (CacheMiss key) ;;
  result <- func ;;
  add key result ttl ;;
  ret result.

(** ** The hand-written caching pattern of the tests *)

(** Python truthiness, as tested by [if result:]. *)
Definition truthy (v : value) : bool :=
  match v with
  | PyNone => false
  | PyStr s => negb (String.eqb s "")
  | PyInt n => negb (n =? 0)
  | PyBool b => b
  end.

(** The f-strings [f'dynamic_data_{id}'] and [f"dynamic data {id}"]. *)
Definition dynamic_key (id : string) : string :=
  String.append "dynamic_data_" id.
Definition dynamic_data (id : string) : value :=
  PyStr (String.append "dynamic data " id).

(** [mock_get_dynamic_data(id)]: read the cache, and on a falsy answer
    fetch for 3 seconds and [add] the data for 10. *)
Definition mock_get_dynamic_data (id : string) : M value :=
  result <- get (dynamic_key id) ;;
  if truthy result then ret result
  else
    sleep 3 ;;
    add (dynamic_key id) (dynamic_data id) 10 ;;
    ret (dynamic_data id).

(** [mock_update_dynamic_data_(id)]: update for 3 seconds, then
    [invalidate] the key. *)
Definition mock_update_dynamic_data_ (id : string) : M unit :=
  sleep 3 ;;
  invalidate (dynamic_key id).

(** * Proofs *)

(** ** Running the primitives *)

Ltac py_unfold :=
  unfold wrapper, wrapper_miss, get, get_miss, add, invalidate, clear,
    bind, ret, raise, time_time, logger_info, cache_contains, cache_getitem,
    ttl_getitem, cache_setitem, ttl_setitem, cache_reset, ttl_reset,
    log_to in *;
  cbn [clock _cache _ttl logged fst snd negb] in *.

Lemma contains_true (m : gmap string value) key v :
  m !! key = Some v → bool_decide (is_Some (m !! key)) = true.
Proof. intros H. apply bool_decide_eq_true. eauto. Qed.

Lemma contains_false (m : gmap string value) key :
  m !! key = None → bool_decide (is_Some (m !! key)) = false.
Proof.
  intros H. apply bool_decide_eq_false. rewrite H. by intros [? ?].
Qed.

Lemma gtb_true (e t : Z) : t < e → (e >? t) = true.
Proof. intros H. apply Z.gtb_lt. lia. Qed.

Lemma gtb_false (e t : Z) : e ≤ t → (e >? t) = false.
Proof. intros H. rewrite Z.gtb_ltb. apply Z.ltb_ge. lia. Qed.

(** Within 2^53 nothing is rounded, and the message can be rendered. *)
Lemma float_of_Z_exact z : exact z → float_of_Z z = Some z.
Proof.
  unfold exact, float_of_Z. intros Hz.
  by rewrite (proj2 (Z.leb_le _ _)) by lia.
Qed.

Lemma time_plus_plain t ttl w :
  plain t ttl → time_plus t ttl w = (Return (t + ttl), w).
Proof.
  intros [Hd Hsum]. unfold time_plus, bind, int_to_float, ret, float_add.
  by rewrite (float_of_Z_exact _ Hd), (float_of_Z_exact _ Hsum).
Qed.

Lemma strftime_gmtime_exact x w :
  exact x → strftime_gmtime x w = (Return tt, w).
Proof.
  unfold exact, exact_max, strftime_gmtime, time_t_max, gmtime_min, gmtime_max,
    strftime_max.
  intros Hx.
  rewrite !(proj2 (Z.ltb_ge _ _)) by lia. done.
Qed.

(** What [add] returns for a plain TTL, in closed form. *)
Lemma add_run key v ttl w :
  plain (clock w) ttl →
  add key v ttl w =
    (Return tt,
     World (clock w) (<[key := v]> (_cache w)) (<[key := clock w + ttl]> (_ttl w))
           (logged w ++ [CacheSet key (clock w + ttl)])).
Proof.
  intros Hp. unfold add, bind at 1 2, time_time, cache_setitem.
  unfold bind at 1. rewrite (time_plus_plain _ _ _ Hp).
  unfold bind at 1, ttl_setitem. unfold bind at 1.
  rewrite (time_plus_plain _ _ _ Hp).
  unfold bind. rewrite strftime_gmtime_exact by apply Hp. done.
Qed.

(** What [add] does for any TTL: the value is written first; the expiry
    follows when the TTL converts to a float; the record is logged when
    the message can be rendered. *)
Lemma add_cases key v ttl w :
  (¬ converts ttl
   ∧ add key v ttl w =
       (Raise OverflowError,
        World (clock w) (<[key := v]> (_cache w)) (_ttl w) (logged w)))
  ∨ (∃ e r l,
       converts ttl
       ∧ add key v ttl w =
           (r, World (clock w) (<[key := v]> (_cache w))
                     (<[key := e]> (_ttl w)) l)).
Proof.
  unfold converts.
  cbv [add bind time_time cache_setitem time_plus int_to_float ttl_setitem ret
       logger_info log_to strftime_gmtime clock _cache _ttl logged].
  destruct (float_of_Z ttl) as [x|].
  - right. repeat (match goal with
                   | |- context [if ?b then _ else _] => destruct b
                   end); eauto 10.
  - left. split; [|done]. by intros [? ?].
Qed.

(** A present, unexpired entry is a hit. *)
Lemma get_hit key w v e :
  _cache w !! key = Some v → _ttl w !! key = Some e → clock w < e →
  get key w = (Return v, log_to (CacheHit key) w).
Proof.
  intros Hc Ht Hlt. py_unfold.
  rewrite (contains_true _ _ _ Hc), Ht, (gtb_true _ _ Hlt). cbn.
  by rewrite Hc.
Qed.

(** An entry whose expiry is not in the future is a miss. *)
Lemma get_expired key w e :
  _ttl w !! key = Some e → e ≤ clock w →
  get key w = (Return PyNone, log_to (CacheMiss key) w).
Proof.
  intros Ht Hle. py_unfold.
  destruct (bool_decide (is_Some (_cache w !! key))); [|done].
  by rewrite Ht, (gtb_false _ _ Hle).
Qed.

(** A key with no value is a miss. *)
Lemma get_absent key w :
  _cache w !! key = None →
  get key w = (Return PyNone, log_to (CacheMiss key) w).
Proof. intros Hc. py_unfold. by rewrite (contains_false _ _ Hc). Qed.


(** ** The store operations *)



Lemma plain_small t d :
  - max_clock ≤ t ≤ max_clock → - max_clock ≤ d ≤ max_clock → plain t d.
Proof. unfold plain, exact, exact_max, max_clock. lia. Qed.





(** What [invalidate] does to a key that has a value. *)
Lemma invalidate_present key w :
  is_Some (_cache w !! key) →
  invalidate key w =
    (Return tt,
     World (clock w) (_cache w) (<[key := clock w - 60]> (_ttl w))
           (logged w ++ [CacheInvalidated key])).
Proof.
  intros Hc. py_unfold.
  by rewrite (bool_decide_eq_true_2 _ Hc).
Qed.

Lemma invalidate_absent key w :
  _cache w !! key = None → invalidate key w = (Return tt, w).
Proof. intros Hc. py_unfold. by rewrite (contains_false _ _ Hc). Qed.

(** C4 (invalidate). For a key that has an entry, [invalidate] writes
    the clock minus 60 as its expiry and leaves the value dictionary as
    it was (nothing is deleted); a [get] in any world that still carries
    that expiry and whose clock has not gone back by more than 60 is a
    miss, whatever the expiry was before. For a key without an entry,
    [invalidate] returns the world it was given, so no entry appears. *)
Theorem invalidate_semantics (k : string) (w : world) :
  (is_Some (_cache w !! k) →
     let w1 := snd (invalidate k w) in
     fst (invalidate k w) = Return tt
     ∧ _ttl w1 = <[k := clock w - 60]> (_ttl w)
     ∧ _cache w1 = _cache w
     ∧ clock w1 = clock w
     ∧ (∀ w2, _ttl w2 !! k = _ttl w1 !! k → clock w - 60 ≤ clock w2 →
              get k w2 = (Return PyNone, log_to (CacheMiss k) w2)))
  ∧ (_cache w !! k = None → invalidate k w = (Return tt, w)).
Proof.
  split.
  - intros Hc w1. subst w1. rewrite (invalidate_present _ _ Hc).
    cbn [fst snd clock _cache _ttl]. repeat split.
    intros w2 Hsame Hlate. rewrite lookup_insert_eq in Hsame.
    apply get_expired with (e := clock w - 60); [done | lia].
  - apply invalidate_absent.
Qed.

Lemma invalidate_semantics_witness :
  get "a" (snd (invalidate "a" (snd (add "a" (PyStr "x") 3600 (fresh 0)))))
  = (Return PyNone,
     log_to (CacheMiss "a")
       (snd (invalidate "a" (snd (add "a" (PyStr "x") 3600 (fresh 0)))))).
Proof.
  assert (Hc : is_Some (_cache (snd (add "a" (PyStr "x") 3600 (fresh 0))) !! "a"))
    by (exists (PyStr "x"); reflexivity).
  apply (proj1 (invalidate_semantics "a" _) Hc).
  - reflexivity.
  - apply Z.leb_le. vm_compute. reflexivity.
Defined.

Lemma clear_run w :
  clear w = (Return tt, World (clock w) ∅ ∅ (logged w ++ [CacheCleared])).
Proof. reflexivity. Qed.

(** C9 (clear). After [clear] both dictionaries are empty and [get] is
    a miss for every key, in the cleared world and in any later world
    whose value dictionary is still empty. *)
Theorem clear_semantics (w : world) :
  let w1 := snd (clear w) in
  fst (clear w) = Return tt
  ∧ _cache w1 = ∅
  ∧ _ttl w1 = ∅
  ∧ (∀ k, get k w1 = (Return PyNone, log_to (CacheMiss k) w1))
  ∧ (∀ k w2, _cache w2 = ∅ →
             get k w2 = (Return PyNone, log_to (CacheMiss k) w2)).
Proof.
  rewrite clear_run. cbn [fst snd _cache _ttl].
  split; [done|]. split; [done|]. split; [done|]. split.
  - intros k. by apply get_absent.
  - intros k w2 H. apply get_absent. by rewrite H.
Qed.

Lemma clear_semantics_witness :
  get "a" (snd (sleep 5 (snd (clear (snd (add "a" (PyStr "x") 3600 (fresh 0)))))))
  = (Return PyNone,
     log_to (CacheMiss "a")
       (snd (sleep 5 (snd (clear (snd (add "a" (PyStr "x") 3600 (fresh 0)))))))).
Proof.
  apply (clear_semantics (snd (add "a" (PyStr "x") 3600 (fresh 0)))).
  reflexivity.
Defined.

(** The scenario of the specification: a value added at time 0 for 10
    seconds is read back at once, is gone at time 11, and a second [add]
    at time 11 is read back at time 12. *)
Example ttl_scenario :
  let w0 := snd (add "a" (PyStr "x") 10 (fresh 0)) in
  let w11 := snd (sleep 11 w0) in
  let w12 := snd (sleep 1 (snd (add "a" (PyStr "y") 10 w11))) in
  fst (get "a" w0) = Return (PyStr "x")
  ∧ fst (get "a" w11) = Return PyNone
  ∧ clock w12 = 12
  ∧ fst (get "a" w12) = Return (PyStr "y").
Proof. vm_compute. repeat split; done. Qed.

(** ** The wrapper *)

(** On a key that has a value, an invalidating wrapper is [invalidate]
    followed by the producer, and nothing after it. *)
Lemma wrapper_stale key ttl ignore func w :
  is_Some (_cache w !! key) →
  wrapper key ttl ignore true func w = func (snd (invalidate key w)).
Proof.
  intros Hc. rewrite (invalidate_present _ _ Hc). py_unfold.
  by rewrite (bool_decide_eq_true_2 _ Hc).
Qed.

(** On a key that has no value every wrapper takes the miss path. *)
Lemma wrapper_absent key ttl ignore invalidate func w :
  _cache w !! key = None →
  wrapper key ttl ignore invalidate func w
  = wrapper_miss key ttl (clock w) func w.
Proof.
  intros Hc.
  destruct invalidate, ignore;
    unfold wrapper, bind, time_time, cache_contains, ret; cbn [negb];
    by rewrite ?(contains_false _ _ Hc).
Qed.

(** The miss path is the producer run after the "Cache miss" record,
    followed by the populate lines. *)
Lemma wrapper_miss_unfold key ttl t func w :
  wrapper_miss key ttl t func w
  = bind func (after_call key ttl t false) (log_to (CacheMiss key) w).
Proof. reflexivity. Qed.

(** The populate lines for a plain TTL. *)
Lemma after_call_plain key ttl t r w :
  plain t ttl →
  after_call key ttl t false r w =
    (Return r,
     World (clock w) (<[key := r]> (_cache w)) (<[key := t + ttl]> (_ttl w))
           (logged w ++ [CacheSet key (t + ttl)])).
Proof.
  intros Hp. unfold after_call, bind at 1, cache_setitem.
  unfold bind at 1. rewrite (time_plus_plain _ _ _ Hp).
  unfold bind at 1, ttl_setitem. unfold bind at 1.
  rewrite (time_plus_plain _ _ _ Hp).
  unfold bind. rewrite strftime_gmtime_exact by apply Hp. done.
Qed.

(** The populate lines for any TTL: the value is written first, the
    expiry follows when the TTL converts to a float. *)
Lemma after_call_cases key ttl t r w :
  (¬ converts ttl
   ∧ after_call key ttl t false r w =
       (Raise OverflowError,
        World (clock w) (<[key := r]> (_cache w)) (_ttl w) (logged w)))
  ∨ (∃ e o l,
       converts ttl
       ∧ (o = Return r ∨ o = Raise OverflowError ∨ o = Raise OSError)
       ∧ after_call key ttl t false r w =
           (o, World (clock w) (<[key := r]> (_cache w))
                     (<[key := e]> (_ttl w)) l)).
Proof.
  unfold converts.
  cbv [after_call bind cache_setitem time_plus int_to_float ttl_setitem ret
       logger_info log_to strftime_gmtime clock _cache _ttl logged].
  destruct (float_of_Z ttl) as [x|].
  - right. repeat (match goal with
                   | |- context [if ?b then _ else _] => destruct b
                   end); eauto 10.
  - left. split; [|done]. by intros [? ?].
Qed.

(** The miss path once the producer has returned, for a plain TTL. *)
Lemma wrapper_miss_return key ttl t func w r w1 :
  func (log_to (CacheMiss key) w) = (Return r, w1) →
  plain t ttl →
  wrapper_miss key ttl t func w =
    (Return r,
     World (clock w1) (<[key := r]> (_cache w1)) (<[key := t + ttl]> (_ttl w1))
           (logged w1 ++ [CacheSet key (t + ttl)])).
Proof.
  intros Hf Hp. rewrite wrapper_miss_unfold. unfold bind. rewrite Hf.
  by apply after_call_plain.
Qed.

(** The miss path when the producer fails. *)
Lemma wrapper_miss_raise key ttl t func w e w1 :
  func (log_to (CacheMiss key) w) = (Raise e, w1) →
  wrapper_miss key ttl t func w = (Raise e, w1).
Proof.
  intros Hf. rewrite wrapper_miss_unfold. unfold bind. by rewrite Hf.
Qed.

(** A valid entry, no [ignore], no [invalidate]: the hit path. *)
Lemma wrapper_hit key ttl func w v e :
  _cache w !! key = Some v → _ttl w !! key = Some e → clock w < e →
  wrapper key ttl false false func w = (Return v, log_to (CacheHit key) w).
Proof.
  intros Hc Ht Hlt. py_unfold.
  rewrite (contains_true _ _ _ Hc), Ht, (gtb_true _ _ Hlt). cbn.
  by rewrite Hc.
Qed.

(** [call_world] is where the producer runs: the wrapper is the producer
    started there, followed by [after_call]. *)
Lemma wrapper_factors key ttl ignore invalidate w wp :
  call_world key ignore invalidate w = Some wp →
  ∀ func,
    wrapper key ttl ignore invalidate func w
    = bind func
        (after_call key ttl (clock w)
           (invalidate && bool_decide (is_Some (_cache w !! key)))) wp.
Proof.
  unfold call_world. intros Hcw func.
  unfold wrapper, wrapper_miss, after_call, bind, time_time, cache_contains,
    ret, ttl_getitem, ttl_setitem, logger_info; cbn [clock _cache _ttl logged].
  destruct invalidate; cbn [andb] in *.
  - destruct (bool_decide (is_Some (_cache w !! key))) eqn:Hb.
    + inversion Hcw; subst. unfold log_to; cbn. by destruct (func _) as [[?|?] ?].
    + destruct ignore; cbn [negb andb] in *.
      * inversion Hcw; subst. done.
      * rewrite Hb in *. inversion Hcw; subst. done.
  - destruct ignore; cbn [negb andb] in *.
    + inversion Hcw; subst. done.
    + destruct (bool_decide (is_Some (_cache w !! key))) eqn:Hb.
      * destruct (_ttl w !! key) as [e|]; [|done].
        destruct (e >? clock w); [done|]. inversion Hcw; subst. done.
      * inversion Hcw; subst. done.
Qed.

(** Up to the [await] the wrapper writes no value. *)
Lemma call_world_cache key ignore invalidate w wp :
  call_world key ignore invalidate w = Some wp → _cache wp = _cache w.
Proof.
  unfold call_world. intros H.
  repeat match type of H with
         | context [if ?b then _ else _] => destruct b
         | context [match ?o with Some _ => _ | None => _ end] => destruct o
         end; inversion H; subst; done.
Qed.

(** When the dictionaries are in sync and the wrapper does not reach the
    [await], it has returned the cached value. *)
Lemma wrapper_no_call key ignore invalidate w :
  in_sync w →
  call_world key ignore invalidate w = None →
  ∃ v e, _cache w !! key = Some v ∧ _ttl w !! key = Some e ∧ clock w < e
         ∧ ignore = false ∧ invalidate = false.
Proof.
  unfold call_world. intros Hs Hcw.
  destruct (bool_decide (is_Some (_cache w !! key))) eqn:Hb.
  - apply bool_decide_eq_true in Hb.
    assert (Ht : is_Some (_ttl w !! key))
      by (apply elem_of_dom; rewrite <- Hs; by apply elem_of_dom).
    destruct Hb as [v Hc], Ht as [e Ht].
    destruct invalidate; [done|]. destruct ignore; [done|].
    cbn in Hcw. rewrite Ht in Hcw.
    destruct (e >? clock w) eqn:Hgt; [|done].
    exists v, e. apply Z.gtb_lt in Hgt. repeat split; try done; lia.
  - by rewrite !andb_false_r in Hcw.
Qed.

(** An invalidating wrapper, case by case. On a key without a value it
    takes the miss path: it logs the miss, runs the producer, and when
    the producer returns it stores the result under the key with the
    entry clock plus [ttl] as expiry (a plain TTL). On a key with a value it is
    [invalidate] followed by the producer, and the world it leaves is
    the one the producer left. Either way the producer runs. *)
Lemma wrapper_invalidate_calls (key : string) (ttl : Z) (ignore : bool)
    (func : M value) (w : world) :
  (_cache w !! key = None →
     wrapper key ttl ignore true func w
     = wrapper_miss key ttl (clock w) func w
     ∧ ∀ r w1, func (log_to (CacheMiss key) w) = (Return r, w1) →
         plain (clock w) ttl →
         wrapper key ttl ignore true func w =
           (Return r,
            World (clock w1) (<[key := r]> (_cache w1))
                  (<[key := clock w + ttl]> (_ttl w1))
                  (logged w1 ++ [CacheSet key (clock w + ttl)])))
  ∧ (is_Some (_cache w !! key) →
     wrapper key ttl ignore true func w = func (snd (invalidate key w))).
Proof.
  split.
  - intros Hc. rewrite (wrapper_absent _ _ _ _ _ _ Hc). split; [done|].
    intros r w1 Hf Hp. by apply wrapper_miss_return.
  - apply wrapper_stale.
Qed.

(** C1 (an invalidating wrapper never leaves an entry). On an empty
    cache the first call of an invalidating wrapper stores what its
    producer returned: the key has a value afterwards and [get] finds
    it. With the two decorated functions of the tests: the updater,
    called first, stores its [None] under "static_data" for an hour, and
    the getter called next returns that [None] from the cache without
    running its producer. *)
Theorem wrapper_invalidate_first_call_caches :
  let w := fresh 0 in
  let w1 := snd (wrapper "k" 3600 false true (slow 3 (PyStr "v")) w) in
  let w2 := snd (mock_update_static_data w) in
  _cache w !! "k" = None
  ∧ _cache w1 !! "k" = Some (PyStr "v")
  ∧ _cache w1 !! "k" ≠ _cache w !! "k"
  ∧ get "k" w1 = (Return (PyStr "v"), log_to (CacheHit "k") w1)
  ∧ _cache w2 !! "static_data" = Some PyNone
  ∧ _ttl w2 !! "static_data" = Some 3600
  ∧ clock w2 = 3
  ∧ mock_get_static_data w2 = (Return PyNone, log_to (CacheHit "static_data") w2).
Proof. vm_compute. repeat split; done. Qed.

(** The miss path against its specification, for a producer that
    returns and a TTL that is plain at both instants: both store the result and differ only in the instant the
    TTL is counted from, the clock read on entry for the code and the
    clock at the moment of writing for [add]. *)
Lemma wrapper_miss_vs_spec key ttl func w r w1 :
  func (log_to (CacheMiss key) w) = (Return r, w1) →
  plain (clock w) ttl → plain (clock w1) ttl →
  wrapper_miss key ttl (clock w) func w =
    (Return r,
     World (clock w1) (<[key := r]> (_cache w1))
           (<[key := clock w + ttl]> (_ttl w1))
           (logged w1 ++ [CacheSet key (clock w + ttl)]))
  ∧ wrapper_miss_spec key ttl func w =
    (Return r,
     World (clock w1) (<[key := r]> (_cache w1))
           (<[key := clock w1 + ttl]> (_ttl w1))
           (logged w1 ++ [CacheSet key (clock w1 + ttl)])).
Proof.
  intros Hf Hp Hp1. split.
  - by apply wrapper_miss_return.
  - unfold wrapper_miss_spec, bind at 1, logger_info. unfold bind at 1.
    rewrite Hf. unfold bind at 1. by rewrite (add_run _ _ _ _ Hp1).
Qed.

(** C2 (the miss path stores as [add] would on completion). With a TTL
    of 2 and a producer that takes 5 seconds, called at time 0 on an
    empty cache: the wrapper writes the entry at time 5 with expiry 2,
    where [add] at that moment writes expiry 7; the entry of the wrapper
    is expired as soon as it is written, the entry of [add] is not. *)
Theorem wrapper_miss_ttl_from_entry :
  let func := slow 5 (PyStr "x") in
  let code := snd (wrapper "k" 2 false false func (fresh 0)) in
  let spec := snd (wrapper_miss_spec "k" 2 func (fresh 0)) in
  clock code = 5 ∧ clock spec = 5
  ∧ _cache code = _cache spec
  ∧ _ttl code !! "k" = Some 2
  ∧ _ttl spec !! "k" = Some 7
  ∧ get "k" code = (Return PyNone, log_to (CacheMiss "k") code)
  ∧ get "k" spec = (Return (PyStr "x"), log_to (CacheHit "k") spec).
Proof. vm_compute. repeat split; done. Qed.

(** An invalidating wrapper on a valid entry does not return the cached
    value: it runs the producer and returns what the producer returns. *)
Lemma wrapper_invalidate_ignores_valid_entry :
  let w := snd (add "k" (PyStr "old") 100 (fresh 0)) in
  let func := slow 3 (PyStr "new") in
  get "k" w = (Return (PyStr "old"), log_to (CacheHit "k") w)
  ∧ fst (wrapper "k" 3600 false true func w) = Return (PyStr "new")
  ∧ fst (wrapper "k" 3600 false true func w) ≠ Return (PyStr "old")
  ∧ clock (snd (wrapper "k" 3600 false true func w)) = 3.
Proof. vm_compute. repeat split; done. Qed.

Lemma cached_not_invoked key ttl ignore invalidate w :
  returns_cached key ttl ignore invalidate w →
  ¬ invokes_producer key ttl ignore invalidate w.
Proof.
  intros (v & _ & Hhit) (wp & k & Hcall).
  specialize (Hhit (raise CancelledError)).
  rewrite Hcall in Hhit. unfold bind, raise in Hhit. discriminate.
Qed.

(** C5 (hit path). With neither [ignore] nor [invalidate] set and a
    valid entry for the key, the wrapper returns the cached value and
    logs the hit, whatever the producer is: the producer does not run.
    And on every call from a world whose dictionaries are in sync,
    whatever the flags, exactly one of the two happens: the wrapper
    returns the cached value without the producer, or it runs the
    producer once. *)
Theorem wrapper_cached_or_invoked (key : string) (ttl : Z) (w : world) :
  in_sync w →
  (∀ v e func,
      _cache w !! key = Some v → _ttl w !! key = Some e → clock w < e →
      wrapper key ttl false false func w = (Return v, log_to (CacheHit key) w))
  ∧ (∀ ignore invalidate,
      (returns_cached key ttl ignore invalidate w
       ∧ ¬ invokes_producer key ttl ignore invalidate w)
      ∨ (invokes_producer key ttl ignore invalidate w
         ∧ ¬ returns_cached key ttl ignore invalidate w)).
Proof.
  intros Hs. split.
  - intros v e func. apply wrapper_hit.
  - intros ignore invalidate.
    destruct (call_world key ignore invalidate w) as [wp|] eqn:Hcw.
    + right.
      assert (Hinv : invokes_producer key ttl ignore invalidate w).
      { exists wp. eexists. apply wrapper_factors, Hcw. }
      split; [done|]. intros Hhit. by apply cached_not_invoked in Hhit.
    + left.
      destruct (wrapper_no_call _ _ _ _ Hs Hcw)
        as (v & e & Hc & Ht & Hlt & -> & ->).
      assert (Hhit : returns_cached key ttl false false w).
      { exists v. split; [done|]. intros func. by eapply wrapper_hit. }
      split; [done|]. by apply cached_not_invoked.
Qed.

Lemma wrapper_cached_or_invoked_witness :
  wrapper "k" 3600 false false (slow 3 (PyStr "new"))
    (snd (add "k" (PyStr "old") 100 (fresh 0)))
  = (Return (PyStr "old"),
     log_to (CacheHit "k") (snd (add "k" (PyStr "old") 100 (fresh 0)))).
Proof.
  assert (Hs : in_sync (snd (add "k" (PyStr "old") 100 (fresh 0)))).
  { rewrite add_run by (apply plain_small; unfold max_clock; cbn; lia).
    unfold in_sync; cbn. by rewrite !dom_insert_L. }
  apply (proj1 (wrapper_cached_or_invoked "k" 3600 _ Hs)) with (e := 100).
  - reflexivity.
  - reflexivity.
  - apply Z.ltb_lt. vm_compute. reflexivity.
Defined.

(** C6 (the invalidating path and its frame). When the key has a value,
    expired or not, an invalidating wrapper is exactly [invalidate]
    followed by the producer: the producer starts in the world that
    [invalidate] leaves, where the clock and the value dictionary are as
    before and only the expiry of the key has changed, to the clock
    minus 60; the wrapper returns what the producer returns and writes
    nothing afterwards. So when the producer itself leaves the two
    dictionaries alone, the value dictionary after the call is the one
    before it and the expiry dictionary differs at that key only. *)
Theorem wrapper_invalidate_frame (key : string) (ttl : Z) (ignore : bool)
    (func : M value) (w : world) :
  is_Some (_cache w !! key) →
  let wp := snd (invalidate key w) in
  let w' := snd (wrapper key ttl ignore true func w) in
  wrapper key ttl ignore true func w = func wp
  ∧ clock wp = clock w
  ∧ _cache wp = _cache w
  ∧ _ttl wp = <[key := clock w - 60]> (_ttl w)
  ∧ logged wp = logged w ++ [CacheInvalidated key]
  ∧ (_cache (snd (func wp)) = _cache wp → _ttl (snd (func wp)) = _ttl wp →
       _cache w' = _cache w
       ∧ _ttl w' = <[key := clock w - 60]> (_ttl w)
       ∧ ∀ other, other ≠ key → _ttl w' !! other = _ttl w !! other).
Proof.
  intros Hc wp w'. subst wp w'.
  rewrite (wrapper_stale _ _ _ _ _ Hc), (invalidate_present _ _ Hc).
  cbn [snd clock _cache _ttl logged].
  split; [done|]. split; [done|]. split; [done|]. split; [done|].
  split; [done|].
  intros -> ->. split; [done|]. split; [done|].
  intros other Hne. by rewrite lookup_insert_ne.
Qed.

Lemma wrapper_invalidate_frame_witness :
  wrapper "k" 3600 false true (slow 3 (PyStr "new"))
    (snd (add "k" (PyStr "old") 100 (fresh 0)))
  = (Return (PyStr "new"),
     World 3 {["k" := PyStr "old"]} {["k" := -60]}
           [CacheSet "k" 100; CacheInvalidated "k"]).
Proof.
  assert (Hc : is_Some (_cache (snd (add "k" (PyStr "old") 100 (fresh 0))) !! "k"))
    by (exists (PyStr "old"); reflexivity).
  rewrite (proj1 (wrapper_invalidate_frame "k" 3600 false
                    (slow 3 (PyStr "new")) _ Hc)).
  reflexivity.
Defined.

(** C7 (a failing producer). When the wrapper reaches its [await] in
    the world [wp] and the producer fails there with [e], leaving [w1],
    the wrapper fails with the same [e] and leaves the same [w1]: it
    writes nothing after the failure. Before the [await] it has written
    no value either, so the value dictionary after the failed call is
    the one before it whenever the producer itself did not write one. *)
Theorem wrapper_failure_propagates (key : string) (ttl : Z)
    (ignore invalidate : bool) (func : M value) (w wp : world)
    (e : exn) (w1 : world) :
  call_world key ignore invalidate w = Some wp →
  func wp = (Raise e, w1) →
  wrapper key ttl ignore invalidate func w = (Raise e, w1)
  ∧ _cache wp = _cache w
  ∧ (_cache w1 = _cache wp →
     _cache (snd (wrapper key ttl ignore invalidate func w)) = _cache w).
Proof.
  intros Hcw Hf.
  assert (Hrun : wrapper key ttl ignore invalidate func w = (Raise e, w1)).
  { rewrite (wrapper_factors _ ttl _ _ _ _ Hcw). unfold bind. by rewrite Hf. }
  pose proof (call_world_cache _ _ _ _ _ Hcw) as Hsame.
  split; [done|]. split; [done|].
  intros Hw1. rewrite Hrun. cbn. congruence.
Qed.

Lemma wrapper_failure_propagates_witness :
  wrapper "k" 3600 false false (failing 3 (ProducerError "db down")) (fresh 0)
  = (Raise (ProducerError "db down"), World 3 ∅ ∅ [CacheMiss "k"]).
Proof.
  apply (wrapper_failure_propagates "k" 3600 false false
           (failing 3 (ProducerError "db down")) (fresh 0)
           (World 0 ∅ ∅ [CacheMiss "k"])); reflexivity.
Defined.

(** ** The two dictionaries stay in sync *)















(** * Further properties of the code *)

(** ** Reads *)

(** The answer of [get] depends on the clock and on the two entries of
    the key only. *)
Lemma get_ext k w w' :
  clock w = clock w' → _cache w !! k = _cache w' !! k →
  _ttl w !! k = _ttl w' !! k →
  fst (get k w) = fst (get k w').
Proof.
  intros Hclk Hc Ht. py_unfold. rewrite Hclk, Hc.
  destruct (bool_decide (is_Some (_cache w' !! k))); [|done].
  rewrite Ht. destruct (_ttl w' !! k) as [e|]; [|done].
  destruct (e >? clock w'); [|done]. cbn. rewrite Hc.
  by destruct (_cache w' !! k).
Qed.

(** A value without an expiry makes [get] fail on the lookup. *)
Lemma expiry_missing_raises_aux key v w :
  _cache w !! key = Some v → _ttl w !! key = None →
  get key w = (Raise (KeyError key), w).
Proof.
  intros Hc Ht. py_unfold. by rewrite (contains_true _ _ _ Hc), Ht.
Qed.

(** X1. [get] is read-only: whatever the world, it leaves the clock and
    both dictionaries as they are, and the world it returns is the one
    it was given with exactly one record logged, a hit or a miss for
    that key, unless the expiry lookup fails, in which case the world
    is unchanged. *)
Theorem get_read_only (k : string) (w : world) :
  clock (snd (get k w)) = clock w
  ∧ _cache (snd (get k w)) = _cache w
  ∧ _ttl (snd (get k w)) = _ttl w
  ∧ (snd (get k w) = log_to (CacheHit k) w
     ∨ snd (get k w) = log_to (CacheMiss k) w
     ∨ get k w = (Raise (KeyError k), w)).
Proof.
  py_unfold.
  destruct (bool_decide (is_Some (_cache w !! k))) eqn:Hb.
  - apply bool_decide_eq_true in Hb as [v Hc].
    destruct (_ttl w !! k) as [e|]; [|by auto 10].
    destruct (e >? clock w); cbn; [rewrite Hc|]; cbn; by auto 10.
  - cbn. by auto 10.
Qed.

(** X2. A value without an expiry makes the lookup [cls._ttl[key]] fail:
    [get], and a wrapper with neither flag set, raise [KeyError] for the
    key and leave the world untouched; the wrapper does so before it
    logs anything or runs its producer. *)
Theorem expiry_missing_raises (key : string) (v : value) (w : world) :
  _cache w !! key = Some v → _ttl w !! key = None →
  get key w = (Raise (KeyError key), w)
  ∧ ∀ ttl func, wrapper key ttl false false func w = (Raise (KeyError key), w).
Proof.
  intros Hc Ht. split; [|intros ttl func]; py_unfold;
    by rewrite (contains_true _ _ _ Hc), Ht.
Qed.

Lemma expiry_missing_raises_witness :
  get "k" (World 0 {["k" := PyInt 1]} ∅ [])
  = (Raise (KeyError "k"), World 0 {["k" := PyInt 1]} ∅ []).
Proof.
  apply (expiry_missing_raises "k" (PyInt 1) (World 0 {["k" := PyInt 1]} ∅ []));
    reflexivity.
Defined.

(** ** Writes *)

(** X3. The last [add] wins: after two [add]s on one key, [s] seconds
    apart, the second with a plain TTL, both dictionaries are what the
    second [add] alone would have made of the original ones; the first
    value and its remaining life are gone, whatever the first TTL was
    (also one that made the first [add] raise). A [get] right after
    returns the second value when its TTL is positive and [None] when
    it is not. *)
Theorem add_overwrites (k : string) (v1 v2 : value) (d1 d2 s : Z) (w : world) :
  plain (clock w + s) d2 →
  let w1 := snd (sleep s (snd (add k v1 d1 w))) in
  let w2 := snd (add k v2 d2 w1) in
  fst (add k v2 d2 w1) = Return tt
  ∧ _cache w2 = <[k := v2]> (_cache w)
  ∧ _ttl w2 = <[k := clock w + s + d2]> (_ttl w)
  ∧ fst (get k w2) = Return (if 0 <? d2 then v2 else PyNone).
Proof.
  intros Hp. cbn zeta.
  assert (Hshape : ∃ m l, (m = _ttl w ∨ ∃ e, m = <[k := e]> (_ttl w))
            ∧ snd (add k v1 d1 w) = World (clock w) (<[k := v1]> (_cache w)) m l).
  { destruct (add_cases k v1 d1 w) as [[_ ->] | (e & r & l & _ & ->)];
      cbn [snd]; eauto 10. }
  destruct Hshape as (m & l & Hm & ->).
  cbn [snd sleep clock _cache _ttl logged].
  rewrite add_run by exact Hp. cbn [fst snd clock _cache _ttl logged].
  rewrite insert_insert_eq.
  assert (Httl : <[k := clock w + s + d2]> m = <[k := clock w + s + d2]> (_ttl w)).
  { destruct Hm as [-> | [e ->]]; [done|]. by rewrite insert_insert_eq. }
  rewrite Httl. split; [done|]. split; [done|]. split; [done|].
  destruct (0 <? d2) eqn:Hd.
  - apply Z.ltb_lt in Hd. erewrite get_hit; [done|cbn..].
    + apply lookup_insert_eq.
    + apply lookup_insert_eq.
    + lia.
  - apply Z.ltb_ge in Hd. erewrite get_expired; [done|cbn..].
    + apply lookup_insert_eq.
    + lia.
Qed.

Lemma add_overwrites_witness :
  fst (get "a" (snd (add "a" (PyStr "y") 20
                       (snd (sleep 5 (snd (add "a" (PyStr "x") (10 ^ 400) (fresh 0))))))))
  = Return (PyStr "y").
Proof.
  assert (Hp : plain (clock (fresh 0) + 5) 20)
    by (apply plain_small; unfold max_clock; cbn; lia).
  exact (proj2 (proj2 (proj2
           (add_overwrites "a" (PyStr "x") (PyStr "y") (10 ^ 400) 20 5 (fresh 0) Hp)))).
Defined.

(** X4. Keys are independent: an [add] or an [invalidate] on one key
    does not change what [get] returns for any other key. *)
Theorem other_keys_untouched (k k' : string) (v : value) (d : Z) (w : world) :
  k ≠ k' →
  fst (get k' (snd (add k v d w))) = fst (get k' w)
  ∧ fst (get k' (snd (invalidate k w))) = fst (get k' w).
Proof.
  intros Hne. split.
  - destruct (add_cases k v d w) as [[_ ->] | (e & r & l & _ & ->)];
      apply get_ext; cbn; try done; by rewrite lookup_insert_ne.
  - destruct (_cache w !! k) as [x|] eqn:Hc.
    + rewrite invalidate_present by (rewrite Hc; eauto).
      apply get_ext; cbn; [done..|]. by rewrite lookup_insert_ne.
    + by rewrite invalidate_absent.
Qed.

Lemma other_keys_untouched_witness :
  fst (get "b" (snd (add "a" (PyStr "x") 10 (snd (add "b" (PyStr "y") 10 (fresh 0))))))
  = Return (PyStr "y").
Proof.
  assert (Hne : "a" ≠ "b") by discriminate.
  rewrite (proj1 (other_keys_untouched "a" "b" (PyStr "x") 10
                    (snd (add "b" (PyStr "y") 10 (fresh 0))) Hne)).
  reflexivity.
Defined.

(** [after_call] only ever adds keys. *)
Lemma after_call_keys key ttl t stale r w :
  dom (_cache w) ⊆ dom (_cache (snd (after_call key ttl t stale r w)))
  ∧ dom (_ttl w) ⊆ dom (_ttl (snd (after_call key ttl t stale r w))).
Proof.
  destruct stale; [done|].
  destruct (after_call_cases key ttl t r w)
    as [[_ ->] | (e & o & l & _ & _ & ->)]; cbn;
    rewrite ?dom_insert_L; split; try done; apply union_subseteq_r.
Qed.

(** X5. Nothing but [clear] removes a key. [add] and [invalidate] keep
    every key of both dictionaries ([invalidate] does not touch the
    values at all), and so does a call of a wrapper whose producer keeps
    them. *)
Theorem keys_never_removed :
  (∀ k v d w,
      dom (_cache w) ⊆ dom (_cache (snd (add k v d w)))
      ∧ dom (_ttl w) ⊆ dom (_ttl (snd (add k v d w))))
  ∧ (∀ k w,
      _cache (snd (invalidate k w)) = _cache w
      ∧ dom (_ttl w) ⊆ dom (_ttl (snd (invalidate k w))))
  ∧ (∀ key ttl ignore invalidate func w,
      (∀ w0, dom (_cache w0) ⊆ dom (_cache (snd (func w0)))
             ∧ dom (_ttl w0) ⊆ dom (_ttl (snd (func w0)))) →
      dom (_cache w) ⊆ dom (_cache (snd (wrapper key ttl ignore invalidate func w)))
      ∧ dom (_ttl w) ⊆ dom (_ttl (snd (wrapper key ttl ignore invalidate func w)))).
Proof.
  split; [|split].
  - intros k v d w.
    destruct (add_cases k v d w) as [[_ ->] | (e & r & l & _ & ->)]; cbn;
      rewrite ?dom_insert_L; split; try done; apply union_subseteq_r.
  - intros k w. destruct (_cache w !! k) as [x|] eqn:Hc.
    + rewrite invalidate_present by (rewrite Hc; eauto). cbn.
      rewrite dom_insert_L. set_solver.
    + by rewrite invalidate_absent.
  - intros key ttl ignore invalidate func w Hf.
    destruct (call_world key ignore invalidate w) as [wp|] eqn:Hcw.
    + rewrite (wrapper_factors _ ttl _ _ _ _ Hcw). unfold bind.
      assert (Hwp : dom (_cache w) ⊆ dom (_cache wp) ∧ dom (_ttl w) ⊆ dom (_ttl wp)).
      { rewrite (call_world_cache _ _ _ _ _ Hcw). split; [done|].
        unfold call_world in Hcw.
        repeat match type of Hcw with
               | context [if ?b then _ else _] => destruct b
               | context [match ?o with Some _ => _ | None => _ end] => destruct o
               end; inversion Hcw; subst; cbn; [|done..].
        rewrite dom_insert_L. apply union_subseteq_r. }
      specialize (Hf wp). destruct (func wp) as [[r|e] w1]; cbn [snd] in *.
      * destruct (after_call_keys key ttl (clock w)
                    (invalidate && bool_decide (is_Some (_cache w !! key))) r w1)
          as [Hk1 Hk2].
        destruct Hwp as [Hw1 Hw2], Hf as [Hf1 Hf2].
        split; (etrans; [|etrans]); eassumption.
      * destruct Hwp as [Hw1 Hw2], Hf as [Hf1 Hf2].
        split; etrans; eassumption.
    + unfold call_world in Hcw.
      unfold wrapper, bind, time_time, cache_contains, ret, ttl_getitem,
        logger_info, cache_getitem, log_to; cbn [clock _cache _ttl logged].
      destruct invalidate, ignore; cbn [negb andb] in *;
        destruct (bool_decide (is_Some (_cache w !! key))); try done;
        destruct (_ttl w !! key) as [e|]; try done;
        destruct (e >? clock w); try done; cbn;
        by destruct (_cache w !! key).
Qed.

Lemma keys_never_removed_witness :
  dom (_cache (snd (add "a" (PyStr "x") 10 (fresh 0))))
  ⊆ dom (_cache (snd (mock_update_static_data
                        (snd (add "a" (PyStr "x") 10 (fresh 0)))))).
Proof.
  destruct keys_never_removed as (_ & _ & Hwrap).
  apply Hwrap. intros w0. split; reflexivity.
Defined.

(** ** The wrapper, call after call *)

(** Without [invalidate], a wrapper refreshes (takes the miss path) when
    [ignore] is set, when the key has no value, or when its entry has
    expired. *)
Lemma wrapper_refresh key ttl ignore func w :
  ignore = true ∨ _cache w !! key = None
  ∨ (∃ e, _ttl w !! key = Some e ∧ e ≤ clock w) →
  wrapper key ttl ignore false func w = wrapper_miss key ttl (clock w) func w.
Proof.
  intros [-> | [Hc | (e & Ht & Hle)]].
  - reflexivity.
  - by apply wrapper_absent.
  - destruct ignore; [done|].
    unfold wrapper, bind, time_time, cache_contains, ret, ttl_getitem; cbn.
    destruct (bool_decide (is_Some (_cache w !! key))); [|done].
    by rewrite Ht, (gtb_false _ _ Hle).
Qed.

(** X6. When the miss path is taken. A wrapper without [invalidate] runs
    its producer in each of three cases: [ignore] is set (even on a
    valid entry), the key has no value, or its entry has expired. When
    the producer returns and the TTL is plain at the entry clock, it
    stores the result with the entry clock plus the TTL as expiry,
    replacing whatever the key held, logs it and returns the result. *)
Theorem wrapper_refreshes (key : string) (ttl : Z) (ignore : bool)
    (func : M value) (w : world) (r : value) (w1 : world) :
  ignore = true ∨ _cache w !! key = None
  ∨ (∃ e, _ttl w !! key = Some e ∧ e ≤ clock w) →
  func (log_to (CacheMiss key) w) = (Return r, w1) →
  plain (clock w) ttl →
  wrapper key ttl ignore false func w =
    (Return r,
     World (clock w1) (<[key := r]> (_cache w1))
           (<[key := clock w + ttl]> (_ttl w1))
           (logged w1 ++ [CacheSet key (clock w + ttl)])).
Proof.
  intros Hcase Hf Hp. rewrite (wrapper_refresh _ _ _ _ _ Hcase).
  by apply wrapper_miss_return.
Qed.

Lemma wrapper_refreshes_witness :
  wrapper "k" 3600 true false (slow 3 (PyStr "new"))
    (snd (add "k" (PyStr "old") 100 (fresh 0)))
  = (Return (PyStr "new"),
     World 3 {["k" := PyStr "new"]} {["k" := 3600]}
           [CacheSet "k" 100; CacheMiss "k"; CacheSet "k" 3600]).
Proof.
  rewrite (wrapper_refreshes "k" 3600 true (slow 3 (PyStr "new"))
             (snd (add "k" (PyStr "old") 100 (fresh 0))) (PyStr "new")
             (World 3 {["k" := PyStr "old"]} {["k" := 100]}
                    [CacheSet "k" 100; CacheMiss "k"])).
  - vm_compute. reflexivity.
  - by left.
  - vm_compute. reflexivity.
  - split; split; apply Z.leb_le; vm_compute; reflexivity.
Defined.

(** The world a wrapper leaves after a first call on a key without a
    value, when the producer returned [r] and left [w1] and the TTL is
    plain. *)
Lemma first_call_run key ttl ignore invalidate func w r w1 :
  _cache w !! key = None →
  func (log_to (CacheMiss key) w) = (Return r, w1) →
  plain (clock w) ttl →
  wrapper key ttl ignore invalidate func w =
    (Return r,
     World (clock w1) (<[key := r]> (_cache w1))
           (<[key := clock w + ttl]> (_ttl w1))
           (logged w1 ++ [CacheSet key (clock w + ttl)])).
Proof.
  intros Hc Hf Hp. rewrite (wrapper_absent _ _ _ _ _ _ Hc).
  by apply wrapper_miss_return.
Qed.

(** X7. How long the entry written by a wrapper lives. After a call on
    a key without a value whose producer returned [r], with a TTL that
    is plain at the entry clock, the wrapper returns [r], and a [get]
    right after finds [r] exactly when the producer finished before the
    entry clock plus [ttl]; a producer that took [ttl] or longer leaves
    an entry that reads as a miss. *)
Theorem first_call_entry_lifetime (key : string) (ttl : Z)
    (ignore invalidate : bool) (func : M value) (w : world)
    (r : value) (w1 : world) :
  _cache w !! key = None →
  func (log_to (CacheMiss key) w) = (Return r, w1) →
  plain (clock w) ttl →
  let w' := snd (wrapper key ttl ignore invalidate func w) in
  fst (wrapper key ttl ignore invalidate func w) = Return r
  ∧ clock w' = clock w1
  ∧ get key w' =
      if clock w1 <? clock w + ttl
      then (Return r, log_to (CacheHit key) w')
      else (Return PyNone, log_to (CacheMiss key) w').
Proof.
  intros Hc Hf Hp. cbn zeta. rewrite (first_call_run _ _ _ _ _ _ _ _ Hc Hf Hp).
  cbn [fst snd clock]. split; [done|]. split; [done|].
  destruct (clock w1 <? clock w + ttl) eqn:Hlt.
  - apply Z.ltb_lt in Hlt.
    apply get_hit with (e := clock w + ttl); cbn;
      [apply lookup_insert_eq | apply lookup_insert_eq | done].
  - apply Z.ltb_ge in Hlt.
    apply get_expired with (e := clock w + ttl); cbn;
      [apply lookup_insert_eq | done].
Qed.

Lemma first_call_entry_lifetime_witness :
  get "static_data" (snd (mock_get_static_data (fresh 0)))
  = (Return (PyStr "static_data"),
     log_to (CacheHit "static_data") (snd (mock_get_static_data (fresh 0)))).
Proof.
  assert (Hc : _cache (fresh 0) !! "static_data" = None) by reflexivity.
  assert (Hf : slow 3 (PyStr "static_data") (log_to (CacheMiss "static_data") (fresh 0))
               = (Return (PyStr "static_data"), World 3 ∅ ∅ [CacheMiss "static_data"]))
    by reflexivity.
  assert (Hp : plain (clock (fresh 0)) default_ttl)
    by (apply plain_small; unfold max_clock, default_ttl; cbn; lia).
  exact (proj2 (proj2 (first_call_entry_lifetime "static_data" default_ttl
                         false false _ _ _ _ Hc Hf Hp))).
Defined.

(** X8. The second call is served from the cache. After a first call
    with a plain TTL that stored [r], a wrapper on the same key with
    neither flag set,
    called [s] seconds after the producer finished, returns [r] without
    its producer as long as the clock is before the first call's entry
    time plus [ttl]; from that instant on it takes the miss path again
    and runs its producer. *)
Theorem second_call_cached (key : string) (ttl : Z) (ignore invalidate : bool)
    (func : M value) (w : world) (r : value) (w1 : world) (s : Z) :
  _cache w !! key = None →
  func (log_to (CacheMiss key) w) = (Return r, w1) →
  plain (clock w) ttl →
  let w2 := snd (sleep s (snd (wrapper key ttl ignore invalidate func w))) in
  (clock w1 + s < clock w + ttl →
     ∀ ttl' func', wrapper key ttl' false false func' w2
                   = (Return r, log_to (CacheHit key) w2))
  ∧ (clock w + ttl ≤ clock w1 + s →
     ∀ ttl' func', wrapper key ttl' false false func' w2
                   = wrapper_miss key ttl' (clock w2) func' w2).
Proof.
  intros Hc Hf Hp. cbn zeta. rewrite (first_call_run _ _ _ _ _ _ _ _ Hc Hf Hp).
  cbn [snd sleep clock _cache _ttl logged]. split.
  - intros Hlt ttl' func'.
    apply wrapper_hit with (e := clock w + ttl); cbn;
      [apply lookup_insert_eq | apply lookup_insert_eq | done].
  - intros Hle ttl' func'. apply wrapper_refresh. right; right.
    exists (clock w + ttl). cbn. split; [apply lookup_insert_eq | done].
Qed.

Lemma second_call_cached_witness :
  mock_get_static_data (snd (sleep 100 (snd (mock_get_static_data (fresh 0)))))
  = (Return (PyStr "static_data"),
     log_to (CacheHit "static_data")
       (snd (sleep 100 (snd (mock_get_static_data (fresh 0)))))).
Proof.
  assert (Hc : _cache (fresh 0) !! "static_data" = None) by reflexivity.
  assert (Hf : slow 3 (PyStr "static_data") (log_to (CacheMiss "static_data") (fresh 0))
               = (Return (PyStr "static_data"), World 3 ∅ ∅ [CacheMiss "static_data"]))
    by reflexivity.
  assert (Hp : plain (clock (fresh 0)) default_ttl)
    by (apply plain_small; unfold max_clock, default_ttl; cbn; lia).
  apply (proj1 (second_call_cached "static_data" default_ttl false false
                  _ _ _ _ 100 Hc Hf Hp)).
  vm_compute. reflexivity.
Defined.

(** X9. An invalidating call forces the next call to fetch again. When
    the key has a value and the producer of the invalidating wrapper
    leaves the expiry it was given, the wrapper leaves the world of its
    producer, and any wrapper without [invalidate] called there takes
    the miss path, as long as the clock has not gone back by more than
    60 in between. *)
Theorem invalidating_call_forces_refetch (key : string) (ttl0 : Z)
    (ignore0 : bool) (update : M value) (w : world)
    (r : outcome value) (w1 : world) :
  is_Some (_cache w !! key) →
  update (snd (invalidate key w)) = (r, w1) →
  _ttl w1 !! key = Some (clock w - 60) →
  clock w - 60 ≤ clock w1 →
  wrapper key ttl0 ignore0 true update w = (r, w1)
  ∧ ∀ ttl ignore func,
      wrapper key ttl ignore false func w1
      = wrapper_miss key ttl (clock w1) func w1.
Proof.
  intros Hc Hu Ht Hclk. split.
  - by rewrite (wrapper_stale _ _ _ _ _ Hc).
  - intros ttl ignore func. apply wrapper_refresh. right; right. eauto.
Qed.

Lemma invalidating_call_forces_refetch_witness :
  clock (snd (mock_get_static_data
                (snd (mock_update_static_data
                        (snd (mock_get_static_data (fresh 0))))))) = 9.
Proof.
  assert (Hc : is_Some (_cache (snd (mock_get_static_data (fresh 0))) !! "static_data"))
    by (exists (PyStr "static_data"); reflexivity).
  destruct (invalidating_call_forces_refetch "static_data" default_ttl false
              (slow 3 PyNone) (snd (mock_get_static_data (fresh 0)))
              (Return PyNone)
              (snd (mock_update_static_data (snd (mock_get_static_data (fresh 0)))))
              Hc) as [Hrun Hnext].
  - reflexivity.
  - reflexivity.
  - apply Z.leb_le. vm_compute. reflexivity.
  - unfold mock_get_static_data at 1. unfold cache. rewrite Hnext.
    vm_compute. reflexivity.
Defined.

(** X10. After [clear] nothing is left to hit or to invalidate: on the
    cleared world [invalidate] does nothing for any key, and every
    wrapper, whatever its flags ([invalidate] included), takes the miss
    path, running its producer and storing the result. *)
Theorem after_clear_everything_misses (w : world) :
  let w0 := snd (clear w) in
  (∀ k, invalidate k w0 = (Return tt, w0))
  ∧ (∀ key ttl ignore invalidate func,
       wrapper key ttl ignore invalidate func w0
       = wrapper_miss key ttl (clock w) func w0).
Proof.
  cbn zeta. rewrite clear_run. cbn [snd]. split.
  - intros k. by apply invalidate_absent.
  - intros key ttl ignore invalidate func.
    by rewrite wrapper_absent.
Qed.

(** X11. A failed refresh does not cost the old entry. When a wrapper
    with [ignore] set is called on a key that holds [v] and its producer
    fails leaving that entry as it was, the wrapper fails with the same
    exception and the old value is still served: [get] returns it as
    long as its expiry is ahead of the clock. *)
Theorem failed_refresh_keeps_entry (key : string) (ttl : Z) (func : M value)
    (w : world) (v : value) (e0 : Z) (ex : exn) (w1 : world) :
  func (log_to (CacheMiss key) w) = (Raise ex, w1) →
  _cache w1 !! key = Some v → _ttl w1 !! key = Some e0 → clock w1 < e0 →
  wrapper key ttl true false func w = (Raise ex, w1)
  ∧ get key (snd (wrapper key ttl true false func w))
    = (Return v, log_to (CacheHit key) w1).
Proof.
  intros Hf Hc Ht Hlt.
  assert (Hrun : wrapper key ttl true false func w = (Raise ex, w1))
    by (by apply wrapper_miss_raise).
  split; [done|]. rewrite Hrun. cbn [snd]. by eapply get_hit.
Qed.

Lemma failed_refresh_keeps_entry_witness :
  wrapper "k" 3600 true false (failing 3 CancelledError)
    (snd (add "k" (PyStr "old") 100 (fresh 0)))
  = (Raise CancelledError,
     World 3 {["k" := PyStr "old"]} {["k" := 100]}
           [CacheSet "k" 100; CacheMiss "k"]).
Proof.
  apply (failed_refresh_keeps_entry "k" 3600 (failing 3 CancelledError)
           (snd (add "k" (PyStr "old") 100 (fresh 0))) (PyStr "old") 100
           CancelledError
           (World 3 {["k" := PyStr "old"]} {["k" := 100]}
                  [CacheSet "k" 100; CacheMiss "k"])); reflexivity.
Defined.

(** X12. A cached [None] cannot be told from a miss by [get]. For every
    plain TTL, [get] right after [add key None ttl] returns [None], the
    value it also returns for a key it does not find. With a positive
    TTL the entry is nevertheless a hit: [get] logs it as one, and a
    wrapper with neither flag set returns the [None] without its
    producer. *)
Theorem cached_none_reads_as_miss (key : string) (d : Z) (w : world) :
  plain (clock w) d →
  let w1 := snd (add key PyNone d w) in
  fst (get key w1) = Return PyNone
  ∧ (0 < d →
     snd (get key w1) = log_to (CacheHit key) w1
     ∧ ∀ ttl func, wrapper key ttl false false func w1
                   = (Return PyNone, log_to (CacheHit key) w1)).
Proof.
  intros Hp. cbn zeta. rewrite (add_run _ _ _ _ Hp). cbn [snd].
  set (w1 := World _ _ _ _).
  assert (Hc : _cache w1 !! key = Some PyNone) by apply lookup_insert_eq.
  assert (Ht : _ttl w1 !! key = Some (clock w + d)) by apply lookup_insert_eq.
  assert (Hcase : 0 < d ∨ d ≤ 0) by lia.
  destruct Hcase as [Hd|Hd].
  - assert (Hlt : clock w1 < clock w + d) by (cbn; lia).
    rewrite (get_hit _ _ _ _ Hc Ht Hlt).
    split; [done|]. intros _. split; [done|]. intros ttl func.
    by apply wrapper_hit with (e := clock w + d).
  - assert (Hle : clock w + d ≤ clock w1) by (cbn; lia).
    rewrite (get_expired _ _ _ Ht Hle).
    split; [done|]. lia.
Qed.

Lemma cached_none_reads_as_miss_witness :
  wrapper "k" 3600 false false (slow 3 (PyStr "data"))
    (snd (add "k" PyNone 10 (fresh 0)))
  = (Return PyNone, log_to (CacheHit "k") (snd (add "k" PyNone 10 (fresh 0)))).
Proof.
  assert (Hd : 0 < 10) by lia.
  assert (Hp : plain (clock (fresh 0)) 10)
    by (apply plain_small; unfold max_clock; cbn; lia).
  apply (proj2 (cached_none_reads_as_miss "k" 10 (fresh 0) Hp) Hd).
Defined.

(** ** The hand-written pattern: [get], fetch, [add] *)

Lemma truthy_dynamic_data id : truthy (dynamic_data id) = true.
Proof. reflexivity. Qed.

(** At a clock that [time.time()] can read, small TTLs are plain, also
    some seconds later. *)
Lemma plain_real_clock w n d :
  real_clock w → 0 ≤ n ≤ 2 * max_clock → - max_clock ≤ d ≤ max_clock →
  plain (clock w + n) d.
Proof. unfold real_clock, plain, exact, exact_max, max_clock. lia. Qed.

(** On a miss [mock_get_dynamic_data] fetches for 3 seconds and stores
    the data for 10 seconds counted from the moment it is written. *)
Lemma mock_get_dynamic_fetch id w :
  get (dynamic_key id) w = (Return PyNone, log_to (CacheMiss (dynamic_key id)) w) →
  plain (clock w + 3) 10 →
  mock_get_dynamic_data id w =
    (Return (dynamic_data id),
     World (clock w + 3)
           (<[dynamic_key id := dynamic_data id]> (_cache w))
           (<[dynamic_key id := clock w + 3 + 10]> (_ttl w))
           ((logged w ++ [CacheMiss (dynamic_key id)])
              ++ [CacheSet (dynamic_key id) (clock w + 3 + 10)])).
Proof.
  intros Hmiss Hp. unfold mock_get_dynamic_data, bind at 1. rewrite Hmiss.
  cbn [truthy]. unfold bind at 1. cbn [sleep]. unfold bind at 1.
  rewrite add_run by exact Hp. reflexivity.
Qed.

(** On a valid entry holding the data it returns it and does nothing
    else but log the hit. *)
Lemma mock_get_dynamic_hit id w e :
  _cache w !! dynamic_key id = Some (dynamic_data id) →
  _ttl w !! dynamic_key id = Some e → clock w < e →
  mock_get_dynamic_data id w
  = (Return (dynamic_data id), log_to (CacheHit (dynamic_key id)) w).
Proof.
  intros Hc Ht Hlt. unfold mock_get_dynamic_data, bind at 1.
  rewrite (get_hit _ _ _ _ Hc Ht Hlt). by rewrite truthy_dynamic_data.
Qed.

(** X13. The hand-written pattern caches for 10 seconds from the write.
    Called at a clock that [time.time()] can read when [get] misses,
    [mock_get_dynamic_data] returns the data after 3 seconds of
    fetching; called again [s] seconds later with [s < 10] it returns
    the same data from the cache, and the clock does not move. *)
Theorem dynamic_fetch_then_hit (id : string) (w : world) (s : Z) :
  real_clock w →
  get (dynamic_key id) w = (Return PyNone, log_to (CacheMiss (dynamic_key id)) w) →
  s < 10 →
  let w1 := snd (mock_get_dynamic_data id w) in
  let w2 := snd (sleep s w1) in
  fst (mock_get_dynamic_data id w) = Return (dynamic_data id)
  ∧ clock w1 = clock w + 3
  ∧ mock_get_dynamic_data id w2
    = (Return (dynamic_data id), log_to (CacheHit (dynamic_key id)) w2).
Proof.
  intros Hreal Hmiss Hs. cbn zeta.
  assert (Hp : plain (clock w + 3) 10)
    by (apply plain_real_clock; [done|unfold max_clock; lia..]).
  rewrite (mock_get_dynamic_fetch _ _ Hmiss Hp).
  cbn [fst snd sleep clock _cache _ttl logged].
  split; [done|]. split; [done|].
  apply mock_get_dynamic_hit with (e := clock w + 3 + 10); cbn;
    [apply lookup_insert_eq | apply lookup_insert_eq | lia].
Qed.

Lemma dynamic_fetch_then_hit_witness :
  clock (snd (mock_get_dynamic_data "7"
                (snd (sleep 9 (snd (mock_get_dynamic_data "7" (fresh 0))))))) = 12.
Proof.
  assert (Hmiss : get (dynamic_key "7") (fresh 0)
                  = (Return PyNone, log_to (CacheMiss (dynamic_key "7")) (fresh 0)))
    by reflexivity.
  assert (Hs : 9 < 10) by lia.
  assert (Hreal : real_clock (fresh 0))
    by (unfold real_clock, max_clock; cbn; lia).
  rewrite (proj2 (proj2 (dynamic_fetch_then_hit "7" (fresh 0) 9 Hreal Hmiss Hs))).
  reflexivity.
Defined.

(** X14. Ten seconds after the write the data is fetched again. After
    a fetch at a clock that [time.time()] can read, called [s] seconds
    later with [s ≥ 10] ([s] within the span of the clock), [get]
    returns [None] for the key and [mock_get_dynamic_data] spends
    another 3 seconds and stores the data for 10 more. *)
Theorem dynamic_refetch_after_ttl (id : string) (w : world) (s : Z) :
  real_clock w →
  get (dynamic_key id) w = (Return PyNone, log_to (CacheMiss (dynamic_key id)) w) →
  10 ≤ s ≤ max_clock →
  let w2 := snd (sleep s (snd (mock_get_dynamic_data id w))) in
  let w3 := snd (mock_get_dynamic_data id w2) in
  fst (get (dynamic_key id) w2) = Return PyNone
  ∧ fst (mock_get_dynamic_data id w2) = Return (dynamic_data id)
  ∧ clock w3 = clock w + 3 + s + 3
  ∧ _ttl w3 !! dynamic_key id = Some (clock w3 + 10).
Proof.
  intros Hreal Hmiss Hs. cbn zeta.
  assert (Hp : plain (clock w + 3) 10)
    by (apply plain_real_clock; [done|unfold max_clock; lia..]).
  rewrite (mock_get_dynamic_fetch _ _ Hmiss Hp).
  cbn [snd sleep clock _cache _ttl logged].
  set (w2 := World _ _ _ _).
  assert (Hmiss2 : get (dynamic_key id) w2
                   = (Return PyNone, log_to (CacheMiss (dynamic_key id)) w2)).
  { apply get_expired with (e := clock w + 3 + 10); cbn;
      [apply lookup_insert_eq | lia]. }
  assert (Hp2 : plain (clock w2 + 3) 10).
  { cbn. replace (clock w + 3 + s + 3) with (clock w + (s + 6)) by lia.
    apply plain_real_clock; [done|unfold max_clock in *; lia..]. }
  rewrite Hmiss2, (mock_get_dynamic_fetch _ _ Hmiss2 Hp2).
  cbn [fst snd clock _ttl]. rewrite lookup_insert_eq.
  repeat split; done.
Qed.

Lemma dynamic_refetch_after_ttl_witness :
  clock (snd (mock_get_dynamic_data "7"
                (snd (sleep 10 (snd (mock_get_dynamic_data "7" (fresh 0))))))) = 16.
Proof.
  assert (Hmiss : get (dynamic_key "7") (fresh 0)
                  = (Return PyNone, log_to (CacheMiss (dynamic_key "7")) (fresh 0)))
    by reflexivity.
  assert (Hs : 10 ≤ 10 ≤ max_clock) by (unfold max_clock; lia).
  assert (Hreal : real_clock (fresh 0))
    by (unfold real_clock, max_clock; cbn; lia).
  exact (proj1 (proj2 (proj2
           (dynamic_refetch_after_ttl "7" (fresh 0) 10 Hreal Hmiss Hs)))).
Defined.

(** X15. The hand-written update invalidates after its 3 seconds, and
    the next read fetches again. At a clock that [time.time()] can read
    and on a key that has a value,
    [mock_update_dynamic_data_] leaves the values as they are and moves
    the expiry of the key 60 seconds behind the clock at that moment;
    [get] then returns [None] and [mock_get_dynamic_data] spends 3 more
    seconds to fetch and store the data. On a key without a value the
    update only lets 3 seconds pass. *)
Theorem dynamic_update_forces_refetch (id : string) (w : world) :
  real_clock w →
  (is_Some (_cache w !! dynamic_key id) →
     let wu := snd (mock_update_dynamic_data_ id w) in
     clock wu = clock w + 3
     ∧ _cache wu = _cache w
     ∧ _ttl wu = <[dynamic_key id := clock w + 3 - 60]> (_ttl w)
     ∧ fst (get (dynamic_key id) wu) = Return PyNone
     ∧ fst (mock_get_dynamic_data id wu) = Return (dynamic_data id)
     ∧ clock (snd (mock_get_dynamic_data id wu)) = clock w + 6)
  ∧ (_cache w !! dynamic_key id = None →
     mock_update_dynamic_data_ id w = sleep 3 w).
Proof.
  intros Hreal. unfold mock_update_dynamic_data_. split.
  - intros Hc. cbn zeta. unfold bind. cbn [sleep].
    rewrite invalidate_present by done.
    cbn [snd clock _cache _ttl logged].
    set (wu := World (clock w + 3) _ _ _).
    assert (Hmiss : get (dynamic_key id) wu
                    = (Return PyNone, log_to (CacheMiss (dynamic_key id)) wu)).
    { apply get_expired with (e := clock w + 3 - 60); cbn;
        [apply lookup_insert_eq | lia]. }
    assert (Hp : plain (clock wu + 3) 10).
    { cbn. replace (clock w + 3 + 3) with (clock w + 6) by lia.
      apply plain_real_clock; [done|unfold max_clock; lia..]. }
    rewrite Hmiss, (mock_get_dynamic_fetch _ _ Hmiss Hp). cbn.
    repeat split; try done; lia.
  - intros Hc. unfold bind. cbn [sleep]. by rewrite invalidate_absent.
Qed.

Lemma dynamic_update_forces_refetch_witness :
  clock (snd (mock_get_dynamic_data "7"
                (snd (mock_update_dynamic_data_ "7"
                        (snd (mock_get_dynamic_data "7" (fresh 0))))))) = 9.
Proof.
  assert (Hc : is_Some (_cache (snd (mock_get_dynamic_data "7" (fresh 0)))
                          !! dynamic_key "7"))
    by (exists (dynamic_data "7"); reflexivity).
  assert (Hreal : real_clock (snd (mock_get_dynamic_data "7" (fresh 0)))).
  { unfold real_clock, max_clock.
    split; apply Z.leb_le; vm_compute; reflexivity. }
  rewrite (proj2 (proj2 (proj2 (proj2 (proj2
            (proj1 (dynamic_update_forces_refetch "7" _ Hreal) Hc)))))).
  reflexivity.
Defined.

(** ** The window in which an entry is readable *)

(** X16. An entry added with a plain TTL [d] is readable for exactly [d]
    seconds. [s] seconds after [add k v d], [get] returns [v] and logs a
    hit when [s < d], and returns [None] and logs a miss when [s ≥ d]:
    the instant of expiry itself already misses, and with [d ≤ 0] there
    is no instant at or after the write at which the entry is found. *)
Theorem add_get_window (k : string) (v : value) (d s : Z) (w : world) :
  plain (clock w) d →
  let w1 := snd (sleep s (snd (add k v d w))) in
  get k w1 =
    if s <? d then (Return v, log_to (CacheHit k) w1)
    else (Return PyNone, log_to (CacheMiss k) w1).
Proof.
  intros Hp. cbn zeta. rewrite (add_run _ _ _ _ Hp).
  cbn [snd sleep clock _cache _ttl logged].
  set (w1 := World (clock w + s) _ _ _).
  assert (Hc : _cache w1 !! k = Some v) by apply lookup_insert_eq.
  assert (Ht : _ttl w1 !! k = Some (clock w + d)) by apply lookup_insert_eq.
  destruct (s <? d) eqn:Hs.
  - apply Z.ltb_lt in Hs. apply (get_hit _ _ _ _ Hc Ht). cbn. lia.
  - apply Z.ltb_ge in Hs. apply (get_expired _ _ _ Ht). cbn. lia.
Qed.

Lemma add_get_window_witness :
  get "a" (snd (sleep 10 (snd (add "a" (PyStr "x") 10 (fresh 0)))))
  = (Return PyNone,
     log_to (CacheMiss "a") (snd (sleep 10 (snd (add "a" (PyStr "x") 10 (fresh 0)))))).
Proof.
  assert (Hp : plain (clock (fresh 0)) 10)
    by (apply plain_small; unfold max_clock; cbn; lia).
  exact (add_get_window "a" (PyStr "x") 10 10 (fresh 0) Hp).
Defined.

(** ** TTLs out of range *)

(** X17. A TTL too large for a float: [add] raises [OverflowError] when
    it has written the value and before it writes the expiry, and logs
    nothing. On a key without an expiry the next [get] fails on the
    expiry lookup; on a key whose old expiry is still ahead of the
    clock, [get] returns the new value as a hit, under the old expiry. *)
Theorem add_unconvertible_ttl (k : string) (v : value) (d : Z) (w : world) :
  ¬ converts d →
  let w1 := World (clock w) (<[k := v]> (_cache w)) (_ttl w) (logged w) in
  add k v d w = (Raise OverflowError, w1)
  ∧ (_ttl w !! k = None → get k w1 = (Raise (KeyError k), w1))
  ∧ (∀ e, _ttl w !! k = Some e → clock w < e →
          get k w1 = (Return v, log_to (CacheHit k) w1)).
Proof.
  intros Hn. cbn zeta.
  destruct (add_cases k v d w) as [[_ Hrun] | (e & r & l & Hd & _)]; [|done].
  split; [done|]. split.
  - intros Ht. apply expiry_missing_raises_aux with (v := v); cbn;
      [apply lookup_insert_eq|done].
  - intros e Ht Hlt. apply get_hit with (e := e); cbn; [apply lookup_insert_eq|done..].
Qed.

Lemma add_unconvertible_ttl_witness :
  add "k" (PyStr "v") (10 ^ 400) (fresh 0)
  = (Raise OverflowError, World 0 {["k" := PyStr "v"]} ∅ []).
Proof.
  assert (Hn : ¬ converts (10 ^ 400)).
  { unfold converts. intros [x Hx]. vm_compute in Hx. discriminate. }
  exact (proj1 (add_unconvertible_ttl "k" (PyStr "v") (10 ^ 400) (fresh 0) Hn)).
Defined.

(** X18. A TTL that converts to a float but puts the expiry beyond what
    the "Cache set" message can render: [add] raises [OverflowError] or
    [OSError] and logs nothing, but the entry is complete by then, and
    at a clock the message could still render, [get] finds the value. *)
Theorem add_beyond_message_range (k : string) (v : value) (d x : Z) (w : world) :
  float_of_Z d = Some x →
  strftime_max < float_add (clock w) x →
  clock w ≤ strftime_max →
  let w1 := World (clock w) (<[k := v]> (_cache w))
                  (<[k := float_add (clock w) x]> (_ttl w)) (logged w) in
  (add k v d w = (Raise OverflowError, w1) ∨ add k v d w = (Raise OSError, w1))
  ∧ get k w1 = (Return v, log_to (CacheHit k) w1).
Proof.
  intros Hx Hbig Hclk. cbn zeta. split.
  - cbv [add bind time_time cache_setitem time_plus int_to_float ttl_setitem ret
         logger_info log_to strftime_gmtime].
    cbn [clock _cache _ttl logged]. rewrite Hx.
    destruct (_ || _); [by left|]. destruct (_ || _); [by right|].
    rewrite (proj2 (Z.ltb_lt _ _) Hbig). by left.
  - apply get_hit with (e := float_add (clock w) x); cbn;
      [apply lookup_insert_eq | apply lookup_insert_eq | lia].
Qed.

Lemma add_beyond_message_range_witness :
  add "k" (PyStr "v") (10 ^ 17) (fresh 0)
  = (Raise OSError,
     World 0 {["k" := PyStr "v"]} {["k" := 10 ^ 17]} []).
Proof.
  assert (Hx : float_of_Z (10 ^ 17) = Some (10 ^ 17)) by (vm_compute; reflexivity).
  assert (Hbig : strftime_max < float_add (clock (fresh 0)) (10 ^ 17))
    by (vm_compute; reflexivity).
  assert (Hclk : clock (fresh 0) ≤ strftime_max)
    by (apply Z.leb_le; vm_compute; reflexivity).
  destruct (proj1 (add_beyond_message_range "k" (PyStr "v") (10 ^ 17) (10 ^ 17)
                     (fresh 0) Hx Hbig Hclk)) as [H|H].
  - vm_compute in H. discriminate.
  - rewrite H. vm_compute. reflexivity.
Defined.
